(** * photutils.background.core: scalar background and background-rms estimators

    A shallow embedding of [photutils/background/core.py].  The module is a
    family of small classes: every estimator optionally sigma-clips its input
    and then hands the array to one statistic of numpy or astropy.

    - Python values that may be stored in an attribute are [pyval];
    - the value of a reduction over a masked array is a [scalar]: a binary64
      number or numpy's masked constant;
    - a method is a state-and-exception transformer over the attributes of
      [self];
    - the statistics and the clipping routine are imported from numpy and
      astropy; they are the fields of the class [Primitives]. *)

From Stdlib Require Import Floats ZArith Bool.
From stdpp Require Import gmap strings list.

Set Default Proof Using "Type".

(** ** Python values *)

Inductive pyval : Type :=
| VNone
| VBool (b : bool)
| VInt (n : Z)
| VFloat (x : float)
| VStr (s : string).

(** The truth value Python gives to a value in [if v:]. *)
Definition truthy (v : pyval) : bool :=
  match v with
  | VNone => false
  | VBool b => b
  | VInt n => negb (n =? 0)%Z
  | VFloat x => negb (PrimFloat.eqb x 0%float)
  | VStr s => negb (String.eqb s EmptyString)
  end.

(** ** Exceptions and results *)

Inductive exn : Type :=
| TypeError
| Raised (name : string).

Inductive result (A : Type) : Type :=
| Ok (a : A)
| Err (e : exn).
Arguments Ok {A} a.
Arguments Err {A} e.

(** ** Masked arrays and numpy scalars *)

(** An array of any dimension, flattened: every reduction of this module is
    taken over the whole array.  A cell whose [masked] flag is set is
    excluded. *)
Record cell : Type := Cell { value : float; masked : bool }.
Definition marray : Type := list cell.

Definition plain (xs : list float) : marray := map (fun x => Cell x false) xs.

Definition unmasked (a : marray) : list float :=
  map value (filter (fun c => masked c = false) a).

(** All elements masked, or no element at all. *)
Definition degenerate (a : marray) : bool := forallb masked a.

(** What a reduction returns: a float, or the masked constant. *)
Inductive scalar : Type :=
| Masked
| Num (x : float).

(** The value of a comparison: a boolean, or the masked constant. *)
Inductive truth : Type :=
| MaskedT
| Truth (b : bool).

(** [bool(...)] of a comparison result; the masked constant is false. *)
Definition bool_of (t : truth) : bool :=
  match t with MaskedT => false | Truth b => b end.

Definition lift2 (f : float -> float -> float) (a b : scalar) : scalar :=
  match a, b with
  | Num x, Num y => Num (f x y)
  | _, _ => Masked
  end.

Definition np_mul : scalar -> scalar -> scalar := lift2 PrimFloat.mul.
Definition np_sub : scalar -> scalar -> scalar := lift2 PrimFloat.sub.
Definition np_div : scalar -> scalar -> scalar := lift2 PrimFloat.div.

Definition np_abs (a : scalar) : scalar :=
  match a with Masked => Masked | Num x => Num (PrimFloat.abs x) end.

Definition cmp2 (f : float -> float -> bool) (a b : scalar) : truth :=
  match a, b with
  | Num x, Num y => Truth (f x y)
  | _, _ => MaskedT
  end.

Definition np_eq : scalar -> scalar -> truth := cmp2 PrimFloat.eqb.
Definition np_lt : scalar -> scalar -> truth := cmp2 PrimFloat.ltb.

(** A masked or not-a-number result. *)
Definition sentinel (s : scalar) : bool :=
  match s with Masked => true | Num x => PrimFloat.is_nan x end.


(** The float literals of the source. *)
Definition f0_3 : float := 0x1.3333333333333p-2%float.
Definition f1_5 : float := 1.5%float.
Definition f2_5 : float := 2.5%float.
Definition f2 : float := 2%float.
Definition f3 : float := 3%float.

(** ** Methods: state and exceptions *)

Definition Method (S A : Type) : Type := S -> result A * S.

Definition ret {S A} (a : A) : Method S A := fun s => (Ok a, s).

Definition bind {S A B} (m : Method S A) (k : A -> Method S B) : Method S B :=
  fun s =>
    match m s with
    | (Ok a, s') => k a s'
    | (Err e, s') => (Err e, s')
    end.

(** Reading an attribute of [self]. *)
Definition getattr {S A} (field : S -> A) : Method S A :=
  fun s => (Ok (field s), s).

(** Calling an imported function: it sees its arguments only. *)
Definition call {S A} (r : result A) : Method S A := fun s => (r, s).

Notation "x <~ m ;; k" := (bind m (fun x => k))
  (at level 20, m at level 99, k at level 200, only parsing).

(** ** The imported functions *)

Class Primitives : Type := {
(** [astropy.stats.sigma_clip(data, sigma, sigma_lower, sigma_upper, iters)] *)
sigma_clip : marray -> pyval -> pyval -> pyval -> pyval -> result marray;
(** [np.ma.mean], [np.ma.median], [np.ma.std] *)
ma_mean : marray -> result scalar;
ma_median : marray -> result scalar;
ma_std : marray -> result scalar;
(** [astropy.stats.mad_std] *)
mad_std : marray -> result scalar;
(** [astropy.stats.biweight_location(data, c, M)] and
    [astropy.stats.biweight_midvariance(data, c, M)] *)
biweight_location : marray -> pyval -> pyval -> result scalar;
biweight_midvariance : marray -> pyval -> pyval -> result scalar
}.

(** ** Binding the arguments of a call to the parameters of [__init__] *)

(** [bind_params params args kw] binds positional arguments, then keywords,
    then defaults, to the parameters in order.  It returns the values of the
    parameters and the keywords left over.  A parameter given both by
    position and by keyword, or a positional argument without a parameter,
    is a [TypeError]. *)
Fixpoint bind_params (params : list (string * pyval)) (args : list pyval)
    (kw : gmap string pyval) : result (list pyval * gmap string pyval) :=
  match params with
  | [] =>
      match args with
      | [] => Ok ([], kw)
      | _ :: _ => Err TypeError
      end
  | (name, dflt) :: params' =>
      match args with
      | a :: args' =>
          match kw !! name with
          | Some _ => Err TypeError
          | None =>
              match bind_params params' args' kw with
              | Ok (vs, rest) => Ok (a :: vs, rest)
              | Err e => Err e
              end
          end
      | [] =>
          match bind_params params' [] (delete name kw) with
          | Ok (vs, rest) => Ok (default dflt (kw !! name) :: vs, rest)
          | Err e => Err e
          end
      end
  end.

(** A signature without a keyword dictionary refuses a keyword it does not
    name. *)
Definition no_more_keywords (kw : gmap string pyval) : result unit :=
  match map_to_list kw with
  | [] => Ok tt
  | _ :: _ => Err TypeError
  end.

(** ** class BackgroundBase *)

Module BackgroundBase.

(** The attributes [__init__] sets on [self]. *)
Record t : Type := Self {
  sigclip : pyval;
  sigma : pyval;
  sigma_lower : pyval;
  sigma_upper : pyval;
  iters : pyval
}.

(** [def __init__(self, sigclip=True, sigma=3, sigma_lower=None,
                  sigma_upper=None, iters=5)] *)
Definition params : list (string * pyval) :=
  [("sigclip", VBool true); ("sigma", VInt 3); ("sigma_lower", VNone);
   ("sigma_upper", VNone); ("iters", VInt 5)].

Definition __init__ (args : list pyval) (kwargs : gmap string pyval)
    : result t :=
  match bind_params params args kwargs with
  | Err e => Err e
  | Ok (vs, rest) =>
      match no_more_keywords rest with
      | Err e => Err e
      | Ok _ =>
          match vs with
          | [v1; v2; v3; v4; v5] => Ok (Self v1 v2 v3 v4 v5)
          | _ => Err TypeError
          end
      end
  end.

Section methods.
Context `{Primitives}.

(** [def sigma_clip(self, data)] *)
Definition sigma_clip_method (data : marray) : Method t marray :=
  sg <~ getattr sigma ;;
  lo <~ getattr sigma_lower ;;
  up <~ getattr sigma_upper ;;
  it <~ getattr iters ;;
  call (sigma_clip data sg lo up it).
End methods.

End BackgroundBase.

(** The subclasses whose [__init__] takes keyword arguments only and hands
    all of them to [BackgroundBase.__init__]. *)
Definition init_kwargs_only (args : list pyval) (kwargs : gmap string pyval)
    : result BackgroundBase.t :=
  match bind_params [] args kwargs with
  | Err e => Err e
  | Ok (_, kw) => BackgroundBase.__init__ [] kw
  end.

Module MeanBackground.
Definition t : Type := BackgroundBase.t.
Definition __init__ := init_kwargs_only.

Section methods.
Context `{Primitives}.

Definition calc_background (data : marray) : Method t scalar :=
  sc <~ getattr BackgroundBase.sigclip ;;
  data <~ (if truthy sc then BackgroundBase.sigma_clip_method data
           else ret data) ;;
  call (ma_mean data).
End methods.
End MeanBackground.

Module MedianBackground.
Definition t : Type := BackgroundBase.t.
Definition __init__ := init_kwargs_only.

Section methods.
Context `{Primitives}.

Definition calc_background (data : marray) : Method t scalar :=
  sc <~ getattr BackgroundBase.sigclip ;;
  data <~ (if truthy sc then BackgroundBase.sigma_clip_method data
           else ret data) ;;
  call (ma_median data).
End methods.
End MedianBackground.

Module MMMBackground.
Definition t : Type := BackgroundBase.t.
Definition __init__ := init_kwargs_only.

Section methods.
Context `{Primitives}.

(** [return (3. * np.ma.median(data)) - (2. * np.ma.mean(data))] *)
Definition calc_background (data : marray) : Method t scalar :=
  sc <~ getattr BackgroundBase.sigclip ;;
  data <~ (if truthy sc then BackgroundBase.sigma_clip_method data
           else ret data) ;;
  md <~ call (ma_median data) ;;
  mn <~ call (ma_mean data) ;;
  ret (np_sub (np_mul (Num f3) md) (np_mul (Num f2) mn)).
End methods.
End MMMBackground.

Module SExtractorBackground.
Definition t : Type := BackgroundBase.t.
Definition __init__ := init_kwargs_only.

Section methods.
Context `{Primitives}.

Definition calc_background (data : marray) : Method t scalar :=
  sc <~ getattr BackgroundBase.sigclip ;;
  data <~ (if truthy sc then BackgroundBase.sigma_clip_method data
           else ret data) ;;
  _median <~ call (ma_median data) ;;
  _mean <~ call (ma_mean data) ;;
  _std <~ call (ma_std data) ;;
  if bool_of (np_eq _std (Num 0%float)) then
    ret _mean
  else if bool_of (np_lt (np_div (np_abs (np_sub _mean _median)) _std)
                         (Num f0_3)) then
    ret (np_sub (np_mul (Num f2_5) _median) (np_mul (Num f1_5) _mean))
  else
    ret _median.
End methods.
End SExtractorBackground.

(** The two classes with the tuning constant [c] and the initial guess [M]. *)
Record biweight_self : Type := BiweightSelf {
  base : BackgroundBase.t;
  c : pyval;
  M : pyval
}.

(** [__init__] with the parameters [c] and [M] and a keyword dictionary: the
    dictionary goes to [BackgroundBase.__init__], then [self.c = c] and
    [self.M = M]. *)
Definition init_biweight (c_default : pyval) (args : list pyval)
    (kwargs : gmap string pyval) : result biweight_self :=
  match bind_params [("c", c_default); ("M", VNone)] args kwargs with
  | Err e => Err e
  | Ok (vs, kw) =>
      match BackgroundBase.__init__ [] kw with
      | Err e => Err e
      | Ok b =>
          match vs with
          | [vc; vM] => Ok (BiweightSelf b vc vM)
          | _ => Err TypeError
          end
      end
  end.

(** [self.sigma_clip], inherited, on an object that has more attributes. *)
Definition inherited_sigma_clip `{Primitives} (data : marray)
    : Method biweight_self marray :=
  fun s => (fst (BackgroundBase.sigma_clip_method data (base s)),
            BiweightSelf (snd (BackgroundBase.sigma_clip_method data (base s)))
                         (c s) (M s)).

Module BiweightLocationBackground.
Definition t : Type := biweight_self.
(** [c=6, M=None] *)
Definition __init__ := init_biweight (VInt 6).

Section methods.
Context `{Primitives}.

Definition calc_background (data : marray) : Method t scalar :=
  sc <~ getattr (fun self => BackgroundBase.sigclip (base self)) ;;
  data <~ (if truthy sc then inherited_sigma_clip data else ret data) ;;
  vc <~ getattr c ;;
  vM <~ getattr M ;;
  call (biweight_location data vc vM).
End methods.
End BiweightLocationBackground.

Module StdBackgroundRMS.
Definition t : Type := BackgroundBase.t.
Definition __init__ := init_kwargs_only.

Section methods.
Context `{Primitives}.

Definition calc_background_rms (data : marray) : Method t scalar :=
  sc <~ getattr BackgroundBase.sigclip ;;
  data <~ (if truthy sc then BackgroundBase.sigma_clip_method data
           else ret data) ;;
  call (ma_std data).
End methods.
End StdBackgroundRMS.

Module MADStdBackgroundRMS.
Definition t : Type := BackgroundBase.t.
Definition __init__ := init_kwargs_only.

Section methods.
Context `{Primitives}.

Definition calc_background_rms (data : marray) : Method t scalar :=
  sc <~ getattr BackgroundBase.sigclip ;;
  data <~ (if truthy sc then BackgroundBase.sigma_clip_method data
           else ret data) ;;
  call (mad_std data).
End methods.
End MADStdBackgroundRMS.

Module BiweightMidvarianceBackgroundRMS.
Definition t : Type := biweight_self.
(** [c=9.0, M=None] *)
Definition __init__ := init_biweight (VFloat 9%float).

Section methods.
Context `{Primitives}.

Definition calc_background_rms (data : marray) : Method t scalar :=
  sc <~ getattr (fun self => BackgroundBase.sigclip (base self)) ;;
  data <~ (if truthy sc then inherited_sigma_clip data else ret data) ;;
  vc <~ getattr c ;;
  vM <~ getattr M ;;
  call (biweight_midvariance data vc vM).
End methods.
End BiweightMidvarianceBackgroundRMS.

(** ** The public names and the estimator objects *)

(** [__all__], as written in the source. *)
Definition __all__ : list string :=
  ["MeanBackground"; "MedianBackground"; "MMMBackground";
   "SExtractorBackground"; "BiweightLocationBackground";
   "StdBackgroundRMS"; "MADStdBackgroundRMS";
   "BiweightMidvarianceBackgroundRMS"].

(** The classes the module defines. *)
Inductive class : Type :=
| CBackgroundBase
| CMeanBackground
| CMedianBackground
| CMMMBackground
| CSExtractorBackground
| CBiweightLocationBackground
| CStdBackgroundRMS
| CMADStdBackgroundRMS
| CBiweightMidvarianceBackgroundRMS.

Definition class_name (k : class) : string :=
  match k with
  | CBackgroundBase => "BackgroundBase"
  | CMeanBackground => "MeanBackground"
  | CMedianBackground => "MedianBackground"
  | CMMMBackground => "MMMBackground"
  | CSExtractorBackground => "SExtractorBackground"
  | CBiweightLocationBackground => "BiweightLocationBackground"
  | CStdBackgroundRMS => "StdBackgroundRMS"
  | CMADStdBackgroundRMS => "MADStdBackgroundRMS"
  | CBiweightMidvarianceBackgroundRMS => "BiweightMidvarianceBackgroundRMS"
  end.

Definition classes : list class :=
  [CBackgroundBase; CMeanBackground; CMedianBackground; CMMMBackground;
   CSExtractorBackground; CBiweightLocationBackground; CStdBackgroundRMS;
   CMADStdBackgroundRMS; CBiweightMidvarianceBackgroundRMS].

(** The class body implements [calc_background]: the base class only
    declares it. *)
Definition implements_calc_background (k : class) : bool :=
  match k with
  | CMeanBackground | CMedianBackground | CMMMBackground
  | CSExtractorBackground | CBiweightLocationBackground => true
  | _ => false
  end.

(** The class body implements [calc_background_rms]. *)
Definition implements_calc_background_rms (k : class) : bool :=
  match k with
  | CStdBackgroundRMS | CMADStdBackgroundRMS
  | CBiweightMidvarianceBackgroundRMS => true
  | _ => false
  end.

Definition exported (k : class) : bool :=
  existsb (String.eqb (class_name k)) __all__.

Definition public_background_estimators : list class :=
  filter (fun k => exported k && implements_calc_background k = true) classes.

Definition public_rms_estimators : list class :=
  filter (fun k => exported k && implements_calc_background_rms k = true)
         classes.

(** An estimator object: its class and its attributes. *)
Inductive estimator : Type :=
| Mean (self : MeanBackground.t)
| Median (self : MedianBackground.t)
| MMM (self : MMMBackground.t)
| SExtractor (self : SExtractorBackground.t)
| BiweightLocation (self : BiweightLocationBackground.t)
| StdRMS (self : StdBackgroundRMS.t)
| MADStdRMS (self : MADStdBackgroundRMS.t)
| BiweightMidvarianceRMS (self : BiweightMidvarianceBackgroundRMS.t).


(** The attributes of [BackgroundBase] on any estimator. *)
Definition config (e : estimator) : BackgroundBase.t :=
  match e with
  | Mean s | Median s | MMM s | SExtractor s | StdRMS s | MADStdRMS s => s
  | BiweightLocation s | BiweightMidvarianceRMS s => base s
  end.

(** The attributes [c] and [M], on the classes that have them. *)
Definition tuning (e : estimator) : option (pyval * pyval) :=
  match e with
  | BiweightLocation s | BiweightMidvarianceRMS s => Some (c s, M s)
  | _ => None
  end.


(** Running a method on an object gives the result and the object after the
    call. *)
Definition run {S A} (wrap : S -> estimator) (m : Method S A) (s : S)
    : result A * estimator :=
  (fst (m s), wrap (snd (m s))).

(** The compute operation of an estimator: [calc_background] on the level
    estimators, [calc_background_rms] on the rms estimators. *)
Definition compute `{Primitives} (e : estimator) (data : marray)
    : result scalar * estimator :=
  match e with
  | Mean s => run Mean (MeanBackground.calc_background data) s
  | Median s => run Median (MedianBackground.calc_background data) s
  | MMM s => run MMM (MMMBackground.calc_background data) s
  | SExtractor s =>
      run SExtractor (SExtractorBackground.calc_background data) s
  | BiweightLocation s =>
      run BiweightLocation (BiweightLocationBackground.calc_background data) s
  | StdRMS s => run StdRMS (StdBackgroundRMS.calc_background_rms data) s
  | MADStdRMS s =>
      run MADStdRMS (MADStdBackgroundRMS.calc_background_rms data) s
  | BiweightMidvarianceRMS s =>
      run BiweightMidvarianceRMS
          (BiweightMidvarianceBackgroundRMS.calc_background_rms data) s
  end.

(** ** The statistics, as the documentation describes them *)

Definition and_then {A B} (r : result A) (k : A -> result B) : result B :=
  match r with Ok a => k a | Err e => Err e end.

(** The array a statistic is taken over: the clipped one when [sigclip] is
    set, the input itself otherwise. *)
Definition after_clipping `{Primitives} (b : BackgroundBase.t)
    (data : marray) : result marray :=
  if truthy (BackgroundBase.sigclip b) then
    sigma_clip data (BackgroundBase.sigma b) (BackgroundBase.sigma_lower b)
               (BackgroundBase.sigma_upper b) (BackgroundBase.iters b)
  else Ok data.

(** The standard deviation is a number equal to zero. *)
Definition zero_std (sd : scalar) : Prop :=
  exists x, sd = Num x /\ PrimFloat.eqb x 0%float = true.

(** [abs(mean - median) / std] is a number strictly below 0.3. *)
Definition skew_below_0_3 (md mn sd : scalar) : Prop :=
  exists m a s, md = Num m /\ mn = Num a /\ sd = Num s /\
    PrimFloat.ltb (PrimFloat.div (PrimFloat.abs (PrimFloat.sub a m)) s) f0_3
      = true.

(** [3 median - 2 mean] *)
Definition mmm_mode (md mn : scalar) : scalar :=
  np_sub (np_mul (Num f3) md) (np_mul (Num f2) mn).

(** [2.5 median - 1.5 mean] *)
Definition sextractor_mode (md mn : scalar) : scalar :=
  np_sub (np_mul (Num f2_5) md) (np_mul (Num f1_5) mn).

(** The rule of [SExtractorBackground] on the three statistics. *)
Definition sextractor_rule (md mn sd : scalar) : scalar :=
  if bool_of (np_eq sd (Num 0%float)) then mn
  else if bool_of (np_lt (np_div (np_abs (np_sub mn md)) sd) (Num f0_3))
       then sextractor_mode md mn
       else md.

(** The statistic of each estimator on the array it is given. *)
Definition statistic `{Primitives} (e : estimator) (a : marray)
    : result scalar :=
  match e with
  | Mean _ => ma_mean a
  | Median _ => ma_median a
  | MMM _ =>
      and_then (ma_median a) (fun md =>
      and_then (ma_mean a) (fun mn => Ok (mmm_mode md mn)))
  | SExtractor _ =>
      and_then (ma_median a) (fun md =>
      and_then (ma_mean a) (fun mn =>
      and_then (ma_std a) (fun sd => Ok (sextractor_rule md mn sd))))
  | BiweightLocation s => biweight_location a (c s) (M s)
  | StdRMS _ => ma_std a
  | MADStdRMS _ => mad_std a
  | BiweightMidvarianceRMS s => biweight_midvariance a (c s) (M s)
  end.

(** ** A reference instance of the imported functions

    Straightforward implementations on binary64 numbers, used to run the
    estimators on concrete arrays. *)

Module Reference.

Definition of_nat (n : nat) : float :=
  PrimFloat.of_uint63 (Uint63.of_Z (Z.of_nat n)).

Definition of_Z (n : Z) : float :=
  if (n <? 0)%Z then PrimFloat.opp (PrimFloat.of_uint63 (Uint63.of_Z (- n)))
  else PrimFloat.of_uint63 (Uint63.of_Z n).

(** A Python number as a float; anything else is a [TypeError]. *)
Definition as_float (v : pyval) : result float :=
  match v with
  | VFloat x => Ok x
  | VInt n => Ok (of_Z n)
  | VBool b => Ok (if b then 1%float else 0%float)
  | VNone | VStr _ => Err TypeError
  end.

Definition sum (xs : list float) : float :=
  fold_left PrimFloat.add xs 0%float.

Definition mean (xs : list float) : float :=
  PrimFloat.div (sum xs) (of_nat (length xs)).

Fixpoint insert_sorted (x : float) (xs : list float) : list float :=
  match xs with
  | [] => [x]
  | y :: ys =>
      if PrimFloat.leb x y then x :: xs else y :: insert_sorted x ys
  end.

Definition sort (xs : list float) : list float :=
  fold_right insert_sorted [] xs.

(** The middle value, or the mean of the two middle values. *)
Definition median (xs : list float) : float :=
  let s := sort xs in
  let n := length s in
  if Nat.even n then
    PrimFloat.div
      (PrimFloat.add (nth (n / 2 - 1) s nan) (nth (n / 2) s nan)) 2%float
  else nth (n / 2) s nan.

(** Population standard deviation. *)
Definition std (xs : list float) : float :=
  let m := mean xs in
  PrimFloat.sqrt
    (mean (map (fun x => let d := PrimFloat.sub x m in PrimFloat.mul d d)
               xs)).

(** Modelled from the spec: the median absolute deviation is computed inside
    astropy, which is not part of the sources; the glossary gives it as the
    median of the absolute deviations of each value from the overall
    median. *)
Definition median_absolute_deviation (xs : list float) : float :=
  let m := median xs in
  median (map (fun x => PrimFloat.abs (PrimFloat.sub x m)) xs).

(** A reduction of the unmasked values; masked when there is none. *)
Definition reduce (f : list float -> float) (a : marray) : result scalar :=
  match unmasked a with
  | [] => Ok Masked
  | xs => Ok (Num (f xs))
  end.

(** One clipping pass: mask what lies below [centre - lo * std] or above
    [centre + up * std], with the median as centre. *)
Definition clip_once (lo up : float) (a : marray) : marray :=
  match unmasked a with
  | [] => a
  | xs =>
      let centre := median xs in
      let sd := std xs in
      let min_value := PrimFloat.sub centre (PrimFloat.mul sd lo) in
      let max_value := PrimFloat.add centre (PrimFloat.mul sd up) in
      map (fun cl =>
             Cell (value cl)
                  (masked cl || PrimFloat.ltb (value cl) min_value
                   || PrimFloat.ltb max_value (value cl)))
          a
  end.

(** Clip until a pass masks nothing more; [fuel] bounds the passes. *)
Fixpoint clip_until_stable (fuel : nat) (lo up : float) (a : marray)
    : marray :=
  match fuel with
  | O => a
  | S fuel' =>
      let a' := clip_once lo up a in
      if (length (unmasked a') =? length (unmasked a))%nat then a'
      else clip_until_stable fuel' lo up a'
  end.

Definition ref_sigma_clip (data : marray) (sg lo up it : pyval)
    : result marray :=
  if degenerate data then Ok data else
  and_then (as_float sg) (fun s =>
  and_then (match lo with VNone => Ok s | _ => as_float lo end) (fun l =>
  and_then (match up with VNone => Ok s | _ => as_float up end) (fun u =>
  match it with
  | VNone => Ok (clip_until_stable (S (length data)) l u data)
  | VInt n => Ok (Nat.iter (Z.to_nat n) (clip_once l u) data)
  | _ => Err TypeError
  end))).

(** The scale constant of the MAD-based standard deviation, [1.4826]. *)
Definition f1_4826 : float := 0x1.7b8bac710cb29p+0%float.

(** Modelled from the spec: [astropy.stats.mad_std] is not part of the
    sources; the spec gives it as the median absolute deviation of the
    unmasked values scaled by the constant [1.4826], and a masked result when
    no value is unmasked. *)
Definition ref_mad_std (a : marray) : result scalar :=
  reduce (fun xs => PrimFloat.mul f1_4826 (median_absolute_deviation xs)) a.

(** The biweight weights: [u = (x - M) / (c * MAD)], kept where [|u| < 1]. *)
Definition biweight_terms (cc m : float) (xs : list float)
    : list (float * float) :=
  let mad := median_absolute_deviation xs in
  filter (fun du => PrimFloat.ltb (PrimFloat.abs (snd du)) 1%float = true)
    (map (fun x =>
            let d := PrimFloat.sub x m in
            (d, PrimFloat.div (PrimFloat.div d cc) mad))
         xs).

Definition one_minus_sq (u : float) : float :=
  PrimFloat.sub 1%float (PrimFloat.mul u u).

Definition biweight_loc (cc m : float) (xs : list float) : float :=
  let ts := biweight_terms cc m xs in
  let w u := PrimFloat.mul (one_minus_sq u) (one_minus_sq u) in
  PrimFloat.add m
    (PrimFloat.div (sum (map (fun du => PrimFloat.mul (fst du) (w (snd du))) ts))
                   (sum (map (fun du => w (snd du)) ts))).

Definition biweight_midvar (cc m : float) (xs : list float) : float :=
  let ts := biweight_terms cc m xs in
  let w4 u :=
    let w := PrimFloat.mul (one_minus_sq u) (one_minus_sq u) in
    PrimFloat.mul w w in
  let num :=
    sum (map (fun du =>
                PrimFloat.mul (PrimFloat.mul (fst du) (fst du)) (w4 (snd du)))
             ts) in
  let den :=
    sum (map (fun du =>
                PrimFloat.mul (one_minus_sq (snd du))
                  (PrimFloat.sub 1%float
                     (PrimFloat.mul 5%float
                        (PrimFloat.mul (snd du) (snd du)))))
             ts) in
  PrimFloat.div
    (PrimFloat.mul (PrimFloat.sqrt (of_nat (length ts))) (PrimFloat.sqrt num))
    (PrimFloat.abs den).

Definition with_tuning (f : float -> float -> list float -> float)
    (a : marray) (vc vM : pyval) : result scalar :=
  match unmasked a with
  | [] => Ok Masked
  | xs =>
      and_then (as_float vc) (fun cc =>
      and_then (match vM with VNone => Ok (median xs) | _ => as_float vM end)
               (fun m => Ok (Num (f cc m xs))))
  end.

#[export] Instance prims : Primitives := {|
  sigma_clip := ref_sigma_clip;
  ma_mean := reduce mean;
  ma_median := reduce median;
  ma_std := reduce std;
  mad_std := ref_mad_std;
  biweight_location := with_tuning biweight_loc;
  biweight_midvariance := with_tuning biweight_midvar
|}.

End Reference.

(** ** Definitions used by the statements *)

(** The same imported functions with another clipping routine. *)
Definition with_sigma_clip (P : Primitives)
    (clip : marray -> pyval -> pyval -> pyval -> pyval -> result marray)
    : Primitives :=
  {| sigma_clip := clip;
     ma_mean := @ma_mean P;
     ma_median := @ma_median P;
     ma_std := @ma_std P;
     mad_std := @mad_std P;
     biweight_location := @biweight_location P;
     biweight_midvariance := @biweight_midvariance P |}.

(** Sample objects and arrays. *)
Definition default_base : BackgroundBase.t :=
  BackgroundBase.Self (VBool true) (VInt 3) VNone VNone (VInt 5).

Definition unclipped_base : BackgroundBase.t :=
  BackgroundBase.Self (VBool false) (VInt 3) VNone VNone (VInt 5).

Definition ramp : marray := plain [1; 2; 3; 4; 5; 6]%float.
Definition ramp_with_outlier : marray := plain [1; 2; 3; 4; 5; 100]%float.
Definition all_masked : marray :=
  [Cell 1%float true; Cell 7%float true; Cell 2%float true].

(** Modelled from the spec: numpy and astropy are not part of the sources.
    The spec gives what they do when no element is left unmasked: each
    statistic returns a masked or not-a-number scalar, and clipping only
    removes values, so its result still has no unmasked element. *)
Class DegenerateContract (P : Primitives) : Prop := {
  clip_degenerate : forall a sg lo up it,
    degenerate a = true ->
    exists a', sigma_clip a sg lo up it = Ok a' /\ degenerate a' = true;
  mean_degenerate : forall a,
    degenerate a = true -> exists s, ma_mean a = Ok s /\ sentinel s = true;
  median_degenerate : forall a,
    degenerate a = true -> exists s, ma_median a = Ok s /\ sentinel s = true;
  std_degenerate : forall a,
    degenerate a = true -> exists s, ma_std a = Ok s /\ sentinel s = true;
  mad_std_degenerate : forall a,
    degenerate a = true -> exists s, mad_std a = Ok s /\ sentinel s = true;
  location_degenerate : forall a vc vM,
    degenerate a = true ->
    exists s, biweight_location a vc vM = Ok s /\ sentinel s = true;
  midvariance_degenerate : forall a vc vM,
    degenerate a = true ->
    exists s, biweight_midvariance a vc vM = Ok s /\ sentinel s = true
}.








(** The attributes [__init__] leaves on a new object of each class: those of
    [BackgroundBase] and, on the biweight classes, [c] and [M]. *)
Definition construct (k : class) (args : list pyval)
    (kwargs : gmap string pyval)
    : result (BackgroundBase.t * option (pyval * pyval)) :=
  let plain_init (r : result BackgroundBase.t) :=
    and_then r (fun b => Ok (b, None)) in
  let biweight_init (r : result biweight_self) :=
    and_then r (fun s => Ok (base s, Some (c s, M s))) in
  match k with
  | CBackgroundBase => plain_init (BackgroundBase.__init__ args kwargs)
  | CMeanBackground => plain_init (MeanBackground.__init__ args kwargs)
  | CMedianBackground => plain_init (MedianBackground.__init__ args kwargs)
  | CMMMBackground => plain_init (MMMBackground.__init__ args kwargs)
  | CSExtractorBackground =>
      plain_init (SExtractorBackground.__init__ args kwargs)
  | CBiweightLocationBackground =>
      biweight_init (BiweightLocationBackground.__init__ args kwargs)
  | CStdBackgroundRMS => plain_init (StdBackgroundRMS.__init__ args kwargs)
  | CMADStdBackgroundRMS =>
      plain_init (MADStdBackgroundRMS.__init__ args kwargs)
  | CBiweightMidvarianceBackgroundRMS =>
      biweight_init (BiweightMidvarianceBackgroundRMS.__init__ args kwargs)
  end.

Definition base_names : list string :=
  ["sigclip"; "sigma"; "sigma_lower"; "sigma_upper"; "iters"].

(** The parameters a class takes by position, with their defaults. *)
Definition positional (k : class) : list (string * pyval) :=
  match k with
  | CBackgroundBase => BackgroundBase.params
  | CBiweightLocationBackground => [("c", VInt 6); ("M", VNone)]
  | CBiweightMidvarianceBackgroundRMS => [("c", VFloat 9%float); ("M", VNone)]
  | _ => []
  end.

(** The names a class takes by keyword. *)
Definition keywords (k : class) : list string :=
  match k with
  | CBiweightLocationBackground | CBiweightMidvarianceBackgroundRMS =>
      "c" :: "M" :: base_names
  | _ => base_names
  end.

(** A call that names only parameters of the class, none of them twice, and
    has no positional argument too many.  Nothing is asked of the values. *)
Definition well_formed_call (k : class) (args : list pyval)
    (kwargs : gmap string pyval) : Prop :=
  length args <= length (positional k) /\
  (forall i name d, positional k !! i = Some (name, d) ->
     i < length args -> kwargs !! name = None) /\
  (forall name, is_Some (kwargs !! name) -> name ∈ keywords k).

(** The value supplied for a parameter: by position, else by keyword, else
    its default. *)
Definition supplied (args : list pyval) (kwargs : gmap string pyval)
    (pos : option nat) (name : string) (dflt : pyval) : pyval :=
  match pos ≫= (fun i => args !! i) with
  | Some v => v
  | None => default dflt (kwargs !! name)
  end.

Definition expected_attributes (k : class) (args : list pyval)
    (kwargs : gmap string pyval)
    : BackgroundBase.t * option (pyval * pyval) :=
  let at_base (i : nat) : option nat :=
    match k with CBackgroundBase => Some i | _ => None end in
  (BackgroundBase.Self
     (supplied args kwargs (at_base 0) "sigclip" (VBool true))
     (supplied args kwargs (at_base 1) "sigma" (VInt 3))
     (supplied args kwargs (at_base 2) "sigma_lower" VNone)
     (supplied args kwargs (at_base 3) "sigma_upper" VNone)
     (supplied args kwargs (at_base 4) "iters" (VInt 5)),
   match k with
   | CBiweightLocationBackground =>
       Some (supplied args kwargs (Some 0) "c" (VInt 6),
             supplied args kwargs (Some 1) "M" VNone)
   | CBiweightMidvarianceBackgroundRMS =>
       Some (supplied args kwargs (Some 0) "c" (VFloat 9%float),
             supplied args kwargs (Some 1) "M" VNone)
   | _ => None
   end).

(** More sample objects and arrays: clipping at two standard deviations, a
    [sigma] that is a string, the outlier masked, a not-a-number value. *)
Definition tight_base : BackgroundBase.t :=
  BackgroundBase.Self (VBool true) (VInt 2) VNone VNone (VInt 5).
Definition text_sigma_base : BackgroundBase.t :=
  BackgroundBase.Self (VBool true) (VStr "3") VNone VNone (VInt 5).
Definition ramp_outlier_masked : marray :=
  plain [1; 2; 3; 4; 5]%float ++ [Cell 100%float true].
Definition ramp_with_nan : marray := plain [1; 2; nan; 4]%float.

(** The same object with [sigclip] set to [False]. *)
Definition without_clipping (e : estimator) : estimator :=
  let off (b : BackgroundBase.t) : BackgroundBase.t :=
    BackgroundBase.Self (VBool false) (BackgroundBase.sigma b)
      (BackgroundBase.sigma_lower b) (BackgroundBase.sigma_upper b)
      (BackgroundBase.iters b) in
  match e with
  | Mean s => Mean (off s)
  | Median s => Median (off s)
  | MMM s => MMM (off s)
  | SExtractor s => SExtractor (off s)
  | BiweightLocation s => BiweightLocation (BiweightSelf (off (base s)) (c s) (M s))
  | StdRMS s => StdRMS (off s)
  | MADStdRMS s => MADStdRMS (off s)
  | BiweightMidvarianceRMS s =>
      BiweightMidvarianceRMS (BiweightSelf (off (base s)) (c s) (M s))
  end.

(** The exception [ex] was raised by an imported function during the
    compute operation of [e] on [data]: by the clipping routine, called
    because [sigclip] is set, or by a statistic on the array the clipping
    step left. *)
Definition raised_by_import `{Primitives} (e : estimator) (data : marray)
    (ex : exn) : Prop :=
  (truthy (BackgroundBase.sigclip (config e)) = true /\
   sigma_clip data (BackgroundBase.sigma (config e))
     (BackgroundBase.sigma_lower (config e))
     (BackgroundBase.sigma_upper (config e))
     (BackgroundBase.iters (config e)) = Err ex) \/
  (exists a, after_clipping (config e) data = Ok a /\
     (ma_mean a = Err ex \/ ma_median a = Err ex \/ ma_std a = Err ex \/
      mad_std a = Err ex \/
      (exists vc vM, tuning e = Some (vc, vM) /\
         (biweight_location a vc vM = Err ex \/
          biweight_midvariance a vc vM = Err ex)))).

(** A parameter of a class that a call leaves to its default: it is given
    neither by position nor by keyword. *)
Definition left_to_default (k : class) (args : list pyval)
    (kwargs : gmap string pyval) (name : string) : Prop :=
  kwargs !! name = None /\
  (forall i d, positional k !! i = Some (name, d) -> length args <= i).

(** ** What every method does: clip if asked, then the statistic *)

Section Estimators.
Context `{Primitives}.

(** A method body that starts with
    [if self.sigclip: data = self.sigma_clip(data)]. *)
Lemma bind_clip_base {A} (data : marray) (s : BackgroundBase.t)
    (k : marray -> Method BackgroundBase.t A) :
  bind (getattr BackgroundBase.sigclip)
       (fun sc =>
          bind (if truthy sc then BackgroundBase.sigma_clip_method data
                else ret data) k) s
  = match after_clipping s data with
    | Ok a => k a s
    | Err e => (Err e, s)
    end.
Proof.
  unfold bind, getattr, after_clipping.
  destruct (truthy (BackgroundBase.sigclip s)); reflexivity.
Qed.

Lemma bind_clip_biweight {A} (data : marray) (s : biweight_self)
    (k : marray -> Method biweight_self A) :
  bind (getattr (fun self => BackgroundBase.sigclip (base self)))
       (fun sc =>
          bind (if truthy sc then inherited_sigma_clip data else ret data) k)
       s
  = match after_clipping (base s) data with
    | Ok a => k a s
    | Err e => (Err e, s)
    end.
Proof.
  unfold bind, getattr, after_clipping. destruct s as [b vc vM]; simpl.
  destruct (truthy (BackgroundBase.sigclip b)); reflexivity.
Qed.

(** The compute operation is the statistic of the estimator on the array
    left by the clipping step, and the object is the same afterwards. *)
Lemma compute_unfold (e : estimator) (data : marray) :
  compute e data
  = (and_then (after_clipping (config e) data) (statistic e), e).
Proof.
  destruct e as [s|s|s|s|s|s|s|s]; unfold compute, run; simpl config;
    [ unfold MeanBackground.calc_background
    | unfold MedianBackground.calc_background
    | unfold MMMBackground.calc_background
    | unfold SExtractorBackground.calc_background
    | unfold BiweightLocationBackground.calc_background
    | unfold StdBackgroundRMS.calc_background_rms
    | unfold MADStdBackgroundRMS.calc_background_rms
    | unfold BiweightMidvarianceBackgroundRMS.calc_background_rms ];
    rewrite ?bind_clip_base, ?bind_clip_biweight;
    destruct (after_clipping _ data) as [a|ex]; simpl; try reflexivity;
    unfold bind, call, getattr, ret, sextractor_rule, mmm_mode; simpl.
  - destruct (ma_median a), (ma_mean a); reflexivity.
  - destruct (ma_median a) as [md|], (ma_mean a) as [mn|],
      (ma_std a) as [sd|]; simpl; try reflexivity.
    destruct (bool_of (np_eq sd (Num 0%float))); [reflexivity|].
    destruct (bool_of _); reflexivity.
Qed.

End Estimators.

Section Claims.
Context `{Primitives}.

Lemma sextractor_unfold (self : SExtractorBackground.t) (data : marray) :
  fst (SExtractorBackground.calc_background data self)
  = and_then (after_clipping self data) (statistic (SExtractor self)).
Proof. exact (f_equal fst (compute_unfold (SExtractor self) data)). Qed.

Lemma mmm_unfold (self : MMMBackground.t) (data : marray) :
  fst (MMMBackground.calc_background data self)
  = and_then (after_clipping self data) (statistic (MMM self)).
Proof. exact (f_equal fst (compute_unfold (MMM self) data)). Qed.

Lemma not_zero_std (s : float) :
  ~ zero_std (Num s) -> PrimFloat.eqb s 0%float = false.
Proof.
  intros Hz. destruct (PrimFloat.eqb s 0%float) eqn:E; [|reflexivity].
  exfalso. apply Hz. exists s. split; [reflexivity | exact E].
Qed.

(** C1.  SExtractorBackground.calc_background, on the array left by the
    optional clipping step [a] with median [md], mean [mn] and population
    standard deviation [sd]: it returns the mean when the standard
    deviation equals 0; otherwise [2.5 median - 1.5 mean] when
    [abs(mean - median) / std] is strictly below 0.3; otherwise the
    median, and so also when the ratio is exactly 0.3. *)
Theorem sextractor_background_rule (self : SExtractorBackground.t)
    (data a : marray) (md mn sd : scalar) :
  after_clipping self data = Ok a ->
  ma_median a = Ok md ->
  ma_mean a = Ok mn ->
  ma_std a = Ok sd ->
  let r := fst (SExtractorBackground.calc_background data self) in
  (zero_std sd -> r = Ok mn) /\
  (~ zero_std sd -> skew_below_0_3 md mn sd ->
     r = Ok (sextractor_mode md mn)) /\
  (~ zero_std sd -> ~ skew_below_0_3 md mn sd -> r = Ok md) /\
  (forall m x s, md = Num m -> mn = Num x -> sd = Num s ->
     ~ zero_std sd ->
     PrimFloat.div (PrimFloat.abs (PrimFloat.sub x m)) s = f0_3 ->
     r = Ok md).
Proof.
  intros Hclip Hmd Hmn Hsd r. subst r.
  rewrite sextractor_unfold, Hclip. simpl. rewrite Hmd, Hmn, Hsd. simpl.
  unfold sextractor_rule.
  assert (Hthird : ~ zero_std sd -> ~ skew_below_0_3 md mn sd ->
            Ok (if bool_of (np_eq sd (Num 0%float)) then mn
                else if bool_of
                          (np_lt (np_div (np_abs (np_sub mn md)) sd)
                                 (Num f0_3))
                     then sextractor_mode md mn else md) = Ok md).
  { intros Hz Hs. destruct sd as [|s]; simpl.
    - destruct mn, md; reflexivity.
    - rewrite (not_zero_std s Hz).
      destruct mn as [|x], md as [|m]; simpl; try reflexivity.
      destruct (PrimFloat.ltb _ f0_3) eqn:E; [|reflexivity].
      exfalso. apply Hs. exists m, x, s. repeat split; exact E. }
  repeat split.
  - intros (x & -> & Hx). simpl. rewrite Hx. reflexivity.
  - intros Hz (m & x & s & -> & -> & -> & Hlt). simpl.
    rewrite (not_zero_std s Hz), Hlt. reflexivity.
  - exact Hthird.
  - intros m x s -> -> -> Hz Heq. apply Hthird; [exact Hz|].
    intros (m' & x' & s' & Em & Ex & Es & Hlt).
    injection Em as <-. injection Ex as <-. injection Es as <-.
    rewrite Heq in Hlt. vm_compute in Hlt. discriminate.
Qed.

(** C2.  With clipping disabled, MMMBackground.calc_background on data
    whose median is the number [m] and whose mean is the number [x]
    returns exactly [3 * m - 2 * x]. *)
Theorem mmm_background_unclipped (self : MMMBackground.t) (data : marray)
    (m x : float) :
  truthy (BackgroundBase.sigclip self) = false ->
  ma_median data = Ok (Num m) ->
  ma_mean data = Ok (Num x) ->
  fst (MMMBackground.calc_background data self)
  = Ok (Num (PrimFloat.sub (PrimFloat.mul f3 m) (PrimFloat.mul f2 x))).
Proof.
  intros Hoff Hmd Hmn. rewrite mmm_unfold. unfold after_clipping.
  rewrite Hoff. simpl. rewrite Hmd, Hmn. reflexivity.
Qed.

(** C7.  Two successive invocations of the compute operation on the same
    estimator and the same data give the same result. *)
Theorem compute_twice_same_result (e : estimator) (data : marray) :
  fst (compute (snd (compute e data)) data) = fst (compute e data).
Proof.
  rewrite (compute_unfold e data). cbn [fst snd].
  rewrite compute_unfold. reflexivity.
Qed.

(** C8.  The compute operation leaves the estimator object as it was:
    sigclip, sigma, sigma_lower, sigma_upper, the iteration cap and, where
    present, c and M are unchanged. *)
Theorem compute_leaves_configuration (e : estimator) (data : marray) :
  let e' := snd (compute e data) in
  e' = e /\
  BackgroundBase.sigclip (config e') = BackgroundBase.sigclip (config e) /\
  BackgroundBase.sigma (config e') = BackgroundBase.sigma (config e) /\
  BackgroundBase.sigma_lower (config e')
    = BackgroundBase.sigma_lower (config e) /\
  BackgroundBase.sigma_upper (config e')
    = BackgroundBase.sigma_upper (config e) /\
  BackgroundBase.iters (config e') = BackgroundBase.iters (config e) /\
  tuning e' = tuning e.
Proof. rewrite (compute_unfold e data). simpl. repeat split. Qed.

End Claims.

(** C3.  When [sigclip] is false the clipping step is not applied: the
    result is the statistic of the estimator on the input itself, whatever
    the clipping routine is. *)
Theorem no_clipping_when_sigclip_false (P : Primitives) (e : estimator)
    (data : marray) :
  truthy (BackgroundBase.sigclip (config e)) = false ->
  fst (@compute P e data) = @statistic P e data /\
  forall clip,
    fst (@compute (with_sigma_clip P clip) e data) = fst (@compute P e data).
Proof.
  intros Hoff. split; [|intros clip]; rewrite !compute_unfold; simpl fst;
    unfold after_clipping; rewrite Hoff; simpl; [reflexivity|].
  destruct e; reflexivity.
Qed.

(** *** The claims on concrete arrays, with the reference functions *)

Lemma sextractor_background_rule_witness :
  fst (@SExtractorBackground.calc_background Reference.prims ramp default_base)
  = Ok (Num 3.5%float).
Proof.
  pose proof
    (@sextractor_background_rule Reference.prims default_base ramp ramp
       (Num (Reference.median (unmasked ramp)))
       (Num (Reference.mean (unmasked ramp)))
       (Num (Reference.std (unmasked ramp)))
       ltac:(vm_compute; reflexivity) ltac:(vm_compute; reflexivity)
       ltac:(vm_compute; reflexivity) ltac:(vm_compute; reflexivity))
    as (_ & Hmode & _).
  refine (eq_trans (Hmode _ _) ltac:(vm_compute; reflexivity)).
  - intros (x & Hx & Hzero). injection Hx as <-.
    vm_compute in Hzero. discriminate.
  - eexists _, _, _.
    split; [reflexivity|]. split; [reflexivity|]. split; [reflexivity|].
    vm_compute. reflexivity.
Defined.

(** A constant array has zero dispersion: the mean is returned. *)
Example sextractor_constant_array :
  fst (@SExtractorBackground.calc_background Reference.prims
         (plain [4; 4; 4]%float) default_base)
  = Ok (Num 4%float).
Proof. vm_compute. reflexivity. Qed.

(** A strongly skewed array: the median is returned. *)
Example sextractor_skewed_array :
  fst (@SExtractorBackground.calc_background Reference.prims
         ramp_with_outlier unclipped_base)
  = Ok (Num 3.5%float).
Proof. vm_compute. reflexivity. Qed.

Lemma mmm_background_unclipped_witness :
  fst (@MMMBackground.calc_background Reference.prims ramp_with_outlier
         unclipped_base)
  = Ok (Num (PrimFloat.sub (PrimFloat.mul f3 3.5%float)
               (PrimFloat.mul f2 (Reference.mean (unmasked ramp_with_outlier))))).
Proof.
  apply (@mmm_background_unclipped Reference.prims unclipped_base
           ramp_with_outlier 3.5%float
           (Reference.mean (unmasked ramp_with_outlier)));
    vm_compute; reflexivity.
Defined.

Lemma no_clipping_when_sigclip_false_witness :
  fst (@compute Reference.prims (Mean unclipped_base) ramp_with_outlier)
  = @statistic Reference.prims (Mean unclipped_base) ramp_with_outlier.
Proof.
  apply (no_clipping_when_sigclip_false Reference.prims (Mean unclipped_base)
           ramp_with_outlier).
  vm_compute. reflexivity.
Defined.

(** ** The public names *)

Lemma exported_names_are_the_estimators :
  map class_name (public_background_estimators ++ public_rms_estimators)
  = __all__.
Proof. vm_compute. reflexivity. Qed.

(** C4, as amended.  The module exports exactly 5 background-level estimator
    classes and 3 background-rms estimator classes. *)
Theorem public_surface_counts :
  length public_background_estimators = 5 /\
  length public_rms_estimators = 3 /\
  length __all__ = 8.
Proof. vm_compute. repeat split. Qed.

(** C4, as stated, fails: there are not 7 background-level estimators. *)
Lemma public_surface_not_seven :
  ~ (length public_background_estimators = 7 /\
     length public_rms_estimators = 3).
Proof. vm_compute. intros [Hseven _]. discriminate Hseven. Qed.

(** ** Degenerate input *)

Lemma nan_unique (x : float) : PrimFloat.is_nan x = true -> x = nan.
Proof.
  unfold PrimFloat.is_nan. rewrite FloatAxioms.eqb_spec. intros Hx.
  rewrite <- (SF2Prim_Prim2SF x).
  destruct (Prim2SF x) as [s|s| |s m e]; simpl in Hx;
    try reflexivity; try discriminate Hx;
    try (destruct s; discriminate Hx).
  unfold SpecFloat.SFeqb, SpecFloat.SFcompare in Hx.
  destruct s; rewrite ?Z.compare_refl, ?Pos.compare_refl in Hx;
    simpl in Hx; discriminate Hx.
Qed.

Lemma sentinel_cases (s : scalar) :
  sentinel s = true -> s = Masked \/ s = Num nan.
Proof.
  destruct s as [|x]; simpl; [left; reflexivity|].
  intros Hx. right. f_equal. exact (nan_unique x Hx).
Qed.

Lemma degenerate_unmasked (a : marray) :
  degenerate a = true -> unmasked a = [].
Proof.
  unfold degenerate, unmasked. induction a as [|cl a IH].
  - reflexivity.
  - cbn [forallb]. intros Hall. apply andb_true_iff in Hall as [Hcl Ha].
    rewrite (filter_cons_False _ cl a); [exact (IH Ha)|].
    rewrite Hcl. discriminate.
Qed.

Lemma mmm_mode_sentinel (md mn : scalar) :
  sentinel md = true -> sentinel mn = true ->
  sentinel (mmm_mode md mn) = true.
Proof.
  intros Hmd Hmn.
  destruct (sentinel_cases md Hmd) as [-> | ->],
    (sentinel_cases mn Hmn) as [-> | ->]; vm_compute; reflexivity.
Qed.

Lemma sextractor_rule_sentinel (md mn sd : scalar) :
  sentinel md = true -> sentinel mn = true -> sentinel sd = true ->
  sentinel (sextractor_rule md mn sd) = true.
Proof.
  intros Hmd Hmn Hsd.
  destruct (sentinel_cases md Hmd) as [-> | ->],
    (sentinel_cases mn Hmn) as [-> | ->],
    (sentinel_cases sd Hsd) as [-> | ->]; vm_compute; reflexivity.
Qed.

Lemma after_clipping_degenerate (P : Primitives) (HP : DegenerateContract P)
    (b : BackgroundBase.t) (data : marray) :
  degenerate data = true ->
  exists a, after_clipping b data = Ok a /\ degenerate a = true.
Proof.
  intros Hd. unfold after_clipping.
  destruct (truthy (BackgroundBase.sigclip b)).
  - apply clip_degenerate. exact Hd.
  - exists data. split; [reflexivity | exact Hd].
Qed.

(** C5.  On an input with every element masked, or with no element, every
    estimator returns without raising, and what it returns is a masked or
    not-a-number scalar, as the imported functions returned it. *)
Theorem degenerate_input_gives_sentinel (P : Primitives)
    (HP : DegenerateContract P) (e : estimator) (data : marray) :
  degenerate data = true ->
  exists s, fst (compute e data) = Ok s /\ sentinel s = true.
Proof.
  intros Hd. rewrite compute_unfold. cbn [fst].
  destruct (after_clipping_degenerate P HP (config e) data Hd)
    as (a & -> & Ha).
  cbn [and_then].
  destruct (mean_degenerate a Ha) as (mn & Emn & Hmn).
  destruct (median_degenerate a Ha) as (md & Emd & Hmd).
  destruct (std_degenerate a Ha) as (sd & Esd & Hsd).
  destruct e as [s|s|s|s|s|s|s|s]; cbn [statistic].
  - exists mn. split; assumption.
  - exists md. split; assumption.
  - rewrite Emd, Emn. cbn [and_then]. eexists. split; [reflexivity|].
    apply mmm_mode_sentinel; assumption.
  - rewrite Emd, Emn, Esd. cbn [and_then]. eexists. split; [reflexivity|].
    apply sextractor_rule_sentinel; assumption.
  - apply location_degenerate. exact Ha.
  - exists sd. split; assumption.
  - apply mad_std_degenerate. exact Ha.
  - apply midvariance_degenerate. exact Ha.
Qed.

(** The reference functions honour the contract. *)
Lemma reference_reduce_degenerate (f : list float -> float) (a : marray) :
  degenerate a = true ->
  exists s, Reference.reduce f a = Ok s /\ sentinel s = true.
Proof.
  intros Ha. unfold Reference.reduce. rewrite (degenerate_unmasked a Ha).
  exists Masked. split; reflexivity.
Qed.

Lemma reference_tuning_degenerate f (a : marray) (vc vM : pyval) :
  degenerate a = true ->
  exists s, Reference.with_tuning f a vc vM = Ok s /\ sentinel s = true.
Proof.
  intros Ha. unfold Reference.with_tuning.
  rewrite (degenerate_unmasked a Ha).
  exists Masked. split; reflexivity.
Qed.

Lemma reference_degenerate_contract : DegenerateContract Reference.prims.
Proof.
  split; simpl.
  - intros a sg lo up it Hd. exists a. unfold Reference.ref_sigma_clip.
    split; [rewrite Hd; reflexivity | exact Hd].
  - intros a. apply reference_reduce_degenerate.
  - intros a. apply reference_reduce_degenerate.
  - intros a. apply reference_reduce_degenerate.
  - intros a. unfold Reference.ref_mad_std. apply reference_reduce_degenerate.
  - intros a vc vM. apply reference_tuning_degenerate.
  - intros a vc vM. apply reference_tuning_degenerate.
Qed.

Lemma degenerate_input_gives_sentinel_witness :
  exists s,
    fst (@compute Reference.prims (SExtractor default_base) all_masked) = Ok s
    /\ sentinel s = true.
Proof.
  apply (degenerate_input_gives_sentinel Reference.prims
           reference_degenerate_contract (SExtractor default_base) all_masked).
  vm_compute. reflexivity.
Defined.

(** A zero-length array. *)
Example zero_length_is_masked :
  fst (@compute Reference.prims (MMM default_base) []) = Ok Masked.
Proof. vm_compute. reflexivity. Qed.

(** ** The rms estimators *)






















(** The standard deviation of an array that holds an infinite value is
    not-a-number as well. *)
Example std_rms_of_infinite_value :
  fst (@compute Reference.prims (StdRMS unclipped_base)
         (plain [1%float; infinity]))
  = Ok (Num nan).
Proof. vm_compute. reflexivity. Qed.

(** The three rms estimators on the same array. *)
Example rms_estimators_on_ramp :
  fst (@compute Reference.prims (StdRMS unclipped_base) ramp)
    = Ok (Num 0x1.b534070e9620cp+0%float) /\
  fst (@compute Reference.prims (MADStdRMS unclipped_base) ramp)
    = Ok (Num 0x1.1ca8c154c985fp+1%float).
Proof. vm_compute. split; reflexivity. Qed.

(** C9.  With [mad_std] as the spec gives it, MADStdBackgroundRMS returns
    1.4826 times the median absolute deviation of the unmasked values left
    by the optional clipping; the two are equal, so they agree within any
    tolerance. *)
Theorem mad_std_rms_is_scaled_mad (P : Primitives)
    (self : MADStdBackgroundRMS.t) (data a : marray) :
  (forall b, @mad_std P b = Reference.ref_mad_std b) ->
  after_clipping self data = Ok a ->
  unmasked a <> [] ->
  fst (MADStdBackgroundRMS.calc_background_rms data self)
  = Ok (Num (PrimFloat.mul Reference.f1_4826
               (Reference.median_absolute_deviation (unmasked a)))).
Proof.
  intros Hmad Hclip Hsome.
  change (fst (MADStdBackgroundRMS.calc_background_rms data self))
    with (fst (compute (MADStdRMS self) data)).
  rewrite compute_unfold. cbn [fst config]. rewrite Hclip.
  cbn [and_then statistic]. rewrite Hmad.
  unfold Reference.ref_mad_std, Reference.reduce.
  destruct (unmasked a); [contradiction|reflexivity].
Qed.

Lemma mad_std_rms_is_scaled_mad_witness :
  fst (@MADStdBackgroundRMS.calc_background_rms Reference.prims ramp
         default_base)
  = Ok (Num (PrimFloat.mul Reference.f1_4826 1.5%float)).
Proof.
  refine (eq_trans
            (mad_std_rms_is_scaled_mad Reference.prims default_base ramp ramp
               (fun b => eq_refl) ltac:(vm_compute; reflexivity) _)
            ltac:(vm_compute; reflexivity)).
  vm_compute. discriminate.
Defined.

(** ** Construction *)

Lemma no_more_keywords_empty (kw : gmap string pyval) :
  (forall name, kw !! name = None) -> no_more_keywords kw = Ok tt.
Proof.
  intros Hnone. assert (kw = ∅) as ->.
  { apply map_eq. intros name. rewrite lookup_empty. apply Hnone. }
  unfold no_more_keywords. rewrite map_to_list_empty. reflexivity.
Qed.

Lemma base_init_keywords (kw : gmap string pyval) :
  (forall name, is_Some (kw !! name) -> name ∈ base_names) ->
  BackgroundBase.__init__ [] kw
  = Ok (BackgroundBase.Self
          (default (VBool true) (kw !! "sigclip"))
          (default (VInt 3) (kw !! "sigma"))
          (default VNone (kw !! "sigma_lower"))
          (default VNone (kw !! "sigma_upper"))
          (default (VInt 5) (kw !! "iters"))).
Proof.
  intros Hkw. unfold BackgroundBase.__init__, BackgroundBase.params.
  cbn [bind_params].
  rewrite no_more_keywords_empty.
  - rewrite !lookup_delete_ne by discriminate. reflexivity.
  - intros name. apply eq_None_not_Some. intros Hsome.
    repeat (apply lookup_delete_is_Some in Hsome as [? Hsome]).
    specialize (Hkw name Hsome). unfold base_names in Hkw.
    repeat (apply elem_of_cons in Hkw as [-> | Hkw]; [congruence|]).
    apply elem_of_nil in Hkw. exact Hkw.
Qed.

(** Closes [kw' !! name = None] for the keywords left over by a well-formed
    call. *)
Ltac leftover_is_empty Hkw :=
  let name := fresh "name" in
  let Hsome := fresh "Hsome" in
  intros name; apply eq_None_not_Some; intros Hsome;
  repeat (apply lookup_delete_is_Some in Hsome as [? Hsome]);
  specialize (Hkw name Hsome); cbn in Hkw;
  repeat (apply elem_of_cons in Hkw as [-> | Hkw];
          [ first [ congruence
                  | match goal with
                    | Hnone : _ !! _ = None |- _ =>
                        rewrite Hnone in Hsome; destruct Hsome; discriminate
                    end ] | ]);
  apply elem_of_nil in Hkw; exact Hkw.

Lemma init_biweight_well_formed (cd : pyval) (args : list pyval)
    (kw : gmap string pyval) :
  length args <= 2 ->
  (forall i name d, [("c", cd); ("M", VNone)] !! i = Some (name, d) ->
     i < length args -> kw !! name = None) ->
  (forall name, is_Some (kw !! name) -> name ∈ "c" :: "M" :: base_names) ->
  init_biweight cd args kw
  = Ok (BiweightSelf
          (BackgroundBase.Self
             (default (VBool true) (kw !! "sigclip"))
             (default (VInt 3) (kw !! "sigma"))
             (default VNone (kw !! "sigma_lower"))
             (default VNone (kw !! "sigma_upper"))
             (default (VInt 5) (kw !! "iters")))
          (supplied args kw (Some 0) "c" cd)
          (supplied args kw (Some 1) "M" VNone)).
Proof.
  intros Hlen Hpos Hkw.
  pose proof (Hpos 0 _ _ eq_refl) as H0.
  pose proof (Hpos 1 _ _ eq_refl) as H1.
  clear Hpos.
  do 3 (try destruct args as [|? args]); cbn [length] in *; try lia;
    repeat match goal with
           | H : (?i < ?n)%nat -> _ |- _ =>
               first [ specialize (H ltac:(lia)) | clear H ]
           end;
    unfold init_biweight; cbn [bind_params];
    repeat match goal with
           | H : kw !! _ = None |- _ => rewrite H
           end;
    cbn [bind_params];
    (rewrite base_init_keywords;
     [ rewrite ?lookup_delete_ne by discriminate; reflexivity | ]);
    intros name Hsome;
    pose proof Hsome as Hin;
    repeat (apply lookup_delete_is_Some in Hin as [? Hin]);
    specialize (Hkw name Hin);
    repeat (apply elem_of_cons in Hkw as [-> | Hkw];
            [ first [ congruence
                    | match goal with
                      | Hnone : kw !! _ = None |- _ =>
                          rewrite Hnone in Hin; destruct Hin; discriminate
                      end ] | ]);
    exact Hkw.
Qed.

(** C10.  Every call that binds to the parameters of a class constructs the
    object, whatever the values are (a negative sigma, iteration cap or
    tuning constant included), and each attribute holds the value that was
    supplied for it, or the default of the parameter. *)
Theorem construction_stores_arguments (k : class) (args : list pyval)
    (kwargs : gmap string pyval) :
  well_formed_call k args kwargs ->
  construct k args kwargs = Ok (expected_attributes k args kwargs).
Proof.
  intros (Hlen & Hpos & Hkw).
  destruct k; cbn [positional] in Hlen, Hpos;
    unfold BackgroundBase.params in Hlen; cbn [length] in Hlen;
    cbn [keywords] in Hkw.
  2-5,7-8:
    destruct args as [|v args]; [|cbn [length] in Hlen; lia];
    unfold construct, MeanBackground.__init__, MedianBackground.__init__,
      MMMBackground.__init__, SExtractorBackground.__init__,
      StdBackgroundRMS.__init__, MADStdBackgroundRMS.__init__,
      init_kwargs_only; cbn [bind_params];
    rewrite (base_init_keywords kwargs Hkw); reflexivity.
  - (* BackgroundBase *)
    pose proof (Hpos 0 _ _ eq_refl) as H0.
    pose proof (Hpos 1 _ _ eq_refl) as H1.
    pose proof (Hpos 2 _ _ eq_refl) as H2.
    pose proof (Hpos 3 _ _ eq_refl) as H3.
    pose proof (Hpos 4 _ _ eq_refl) as H4.
    clear Hpos.
    do 6 (try destruct args as [|? args]); cbn [length] in *; try lia;
      repeat match goal with
             | H : (?i < ?n)%nat -> _ |- _ =>
                 first [ specialize (H ltac:(lia)) | clear H ]
             end;
      unfold construct, BackgroundBase.__init__, BackgroundBase.params;
      cbn [bind_params];
      repeat match goal with
             | H : kwargs !! _ = None |- _ => rewrite H
             end;
      cbn [bind_params];
      (rewrite no_more_keywords_empty; [| leftover_is_empty Hkw ]);
      rewrite ?lookup_delete_ne by discriminate;
      reflexivity.
  - unfold construct, BiweightLocationBackground.__init__.
    rewrite (init_biweight_well_formed _ args kwargs Hlen Hpos Hkw).
    reflexivity.
  - unfold construct, BiweightMidvarianceBackgroundRMS.__init__.
    rewrite (init_biweight_well_formed _ args kwargs Hlen Hpos Hkw).
    reflexivity.
Qed.

Lemma construction_stores_arguments_witness :
  construct CBiweightLocationBackground [VFloat (-6)%float]
    (<["sigma" := VInt (-3)]> (<["iters" := VInt (-5)]> ∅))
  = Ok (BackgroundBase.Self (VBool true) (VInt (-3)) VNone VNone (VInt (-5)),
        Some (VFloat (-6)%float, VNone)).
Proof.
  refine (eq_trans
            (construction_stores_arguments CBiweightLocationBackground
               [VFloat (-6)%float]
               (<["sigma" := VInt (-3)]> (<["iters" := VInt (-5)]> ∅)) _)
            ltac:(vm_compute; reflexivity)).
  split; [cbn; lia|]. split.
  - intros [|[|i]] name d Hi Hlt; cbn in Hi, Hlt; try lia.
    injection Hi as <- <-. reflexivity.
  - intros name Hsome. cbn.
    apply lookup_insert_is_Some in Hsome as [<- | [_ Hsome]];
      [set_solver|].
    apply lookup_insert_is_Some in Hsome as [<- | [_ Hsome]];
      [set_solver|].
    rewrite lookup_empty in Hsome. destruct Hsome; discriminate.
Defined.

(** A keyword that names no parameter is refused. *)
Example unknown_keyword_is_refused :
  construct CMeanBackground [] (<["sigm" := VInt 3]> ∅) = Err TypeError.
Proof. vm_compute. reflexivity. Qed.

(** ** How the estimators relate to one another *)

(** MMMBackground is [3 * median - 2 * mean] of what MedianBackground and
    MeanBackground return for the same attributes and data, clipping
    included; it raises what they raise, the median first. *)
Theorem mmm_from_median_and_mean (P : Primitives) (s : BackgroundBase.t)
    (data : marray) :
  fst (compute (MMM s) data)
  = and_then (fst (compute (Median s) data)) (fun md =>
    and_then (fst (compute (Mean s) data)) (fun mn =>
    Ok (mmm_mode md mn))).
Proof.
  rewrite !compute_unfold. cbn [fst config].
  destruct (after_clipping s data) as [a|ex]; cbn [and_then statistic];
    reflexivity.
Qed.

(** SExtractorBackground applies its rule to what MedianBackground,
    MeanBackground and StdBackgroundRMS return for the same attributes and
    data, clipping included. *)
Theorem sextractor_from_median_mean_std (P : Primitives)
    (s : BackgroundBase.t) (data : marray) :
  fst (compute (SExtractor s) data)
  = and_then (fst (compute (Median s) data)) (fun md =>
    and_then (fst (compute (Mean s) data)) (fun mn =>
    and_then (fst (compute (StdRMS s) data)) (fun sd =>
    Ok (sextractor_rule md mn sd)))).
Proof.
  rewrite !compute_unfold. cbn [fst config].
  destruct (after_clipping s data) as [a|ex]; cbn [and_then statistic];
    reflexivity.
Qed.

Lemma statistic_without_clipping (P : Primitives) (e : estimator)
    (a : marray) :
  statistic (without_clipping e) a = statistic e a.
Proof. destruct e; reflexivity. Qed.

(** An estimator that clips returns what the same estimator with
    [sigclip=False] returns on the array the clipping routine produced. *)
Theorem clipping_estimator_is_plain_on_clipped (P : Primitives)
    (e : estimator) (data a : marray) :
  truthy (BackgroundBase.sigclip (config e)) = true ->
  sigma_clip data (BackgroundBase.sigma (config e))
    (BackgroundBase.sigma_lower (config e))
    (BackgroundBase.sigma_upper (config e))
    (BackgroundBase.iters (config e)) = Ok a ->
  fst (compute e data) = fst (compute (without_clipping e) a).
Proof.
  intros Hon Hclip. rewrite !compute_unfold. cbn [fst].
  assert (after_clipping (config (without_clipping e)) a = Ok a) as ->
    by (destruct e; reflexivity).
  unfold after_clipping. rewrite Hon, Hclip. cbn [and_then].
  rewrite statistic_without_clipping. reflexivity.
Qed.

(** ** Exceptions *)

(** When the clipping routine raises, the estimator raises the same
    exception. *)
Theorem clipping_failure_is_raised (P : Primitives) (e : estimator)
    (data : marray) (ex : exn) :
  truthy (BackgroundBase.sigclip (config e)) = true ->
  sigma_clip data (BackgroundBase.sigma (config e))
    (BackgroundBase.sigma_lower (config e))
    (BackgroundBase.sigma_upper (config e))
    (BackgroundBase.iters (config e)) = Err ex ->
  fst (compute e data) = Err ex.
Proof.
  intros Hon Hclip. rewrite compute_unfold. cbn [fst].
  unfold after_clipping. rewrite Hon, Hclip. reflexivity.
Qed.

(** The module raises nothing of its own: an exception that leaves the
    compute operation was raised by the clipping routine or by one of the
    statistics. *)
Theorem exceptions_come_from_imports (P : Primitives) (e : estimator)
    (data : marray) (ex : exn) :
  fst (compute e data) = Err ex -> raised_by_import e data ex.
Proof.
  rewrite compute_unfold. cbn [fst]. unfold raised_by_import.
  destruct (after_clipping (config e) data) as [a|ex'] eqn:Hclip;
    cbn [and_then].
  - intros Hstat. right. exists a. split; [reflexivity|].
    destruct e as [s|s|s|s|s|s|s|s]; cbn [statistic tuning] in *.
    + left. exact Hstat.
    + right. left. exact Hstat.
    + destruct (ma_median a) as [md|ex1] eqn:Emd; cbn [and_then] in Hstat.
      * destruct (ma_mean a) as [mn|ex2] eqn:Emn; cbn [and_then] in Hstat;
          [discriminate Hstat|].
        left. congruence.
      * right. left. congruence.
    + destruct (ma_median a) as [md|ex1] eqn:Emd; cbn [and_then] in Hstat;
        [|right; left; congruence].
      destruct (ma_mean a) as [mn|ex2] eqn:Emn; cbn [and_then] in Hstat;
        [|left; congruence].
      destruct (ma_std a) as [sd|ex3] eqn:Esd; cbn [and_then] in Hstat;
        [discriminate Hstat|].
      right. right. left. congruence.
    + do 4 right. exists (c s), (M s). split; [reflexivity|]. left.
      exact Hstat.
    + right. right. left. exact Hstat.
    + right. right. right. left. exact Hstat.
    + do 4 right. exists (c s), (M s). split; [reflexivity|]. right.
      exact Hstat.
  - intros Hex. injection Hex as ->. left.
    unfold after_clipping in Hclip.
    destruct (truthy (BackgroundBase.sigclip (config e)));
      [split; [reflexivity | exact Hclip] | discriminate Hclip].
Qed.

(** ** Not-a-number statistics in SExtractorBackground *)

Lemma float_of_nan (x : float) : Prim2SF x = SpecFloat.S754_nan -> x = nan.
Proof. intros Hx. rewrite <- (SF2Prim_Prim2SF x), Hx. reflexivity. Qed.

Lemma sub_nan_l (y : float) : PrimFloat.sub nan y = nan.
Proof. apply float_of_nan. rewrite FloatAxioms.sub_spec. reflexivity. Qed.

Lemma sub_nan_r (x : float) : PrimFloat.sub x nan = nan.
Proof.
  apply float_of_nan. rewrite FloatAxioms.sub_spec.
  change (Prim2SF nan) with SpecFloat.S754_nan.
  destruct (Prim2SF x); reflexivity.
Qed.

Lemma div_nan_r (x : float) : PrimFloat.div x nan = nan.
Proof.
  apply float_of_nan. rewrite FloatAxioms.div_spec.
  change (Prim2SF nan) with SpecFloat.S754_nan.
  destruct (Prim2SF x); reflexivity.
Qed.

Lemma ratio_of_nan_not_below (m x s : float) :
  m = nan \/ x = nan \/ s = nan ->
  PrimFloat.ltb (PrimFloat.div (PrimFloat.abs (PrimFloat.sub x m)) s) f0_3
  = false.
Proof.
  intros [-> | [-> | ->]].
  - rewrite sub_nan_r. change (PrimFloat.abs nan) with nan.
    rewrite FloatAxioms.ltb_spec, FloatAxioms.div_spec. reflexivity.
  - rewrite sub_nan_l. change (PrimFloat.abs nan) with nan.
    rewrite FloatAxioms.ltb_spec, FloatAxioms.div_spec. reflexivity.
  - rewrite div_nan_r. reflexivity.
Qed.

(** When the median, the mean or the standard deviation is not a number
    (and the standard deviation is not zero), SExtractorBackground returns
    the median: a comparison with not-a-number is false twice. *)
Theorem sextractor_nan_returns_median (P : Primitives)
    (self : SExtractorBackground.t) (data a : marray) (m x s : float) :
  after_clipping self data = Ok a ->
  ma_median a = Ok (Num m) ->
  ma_mean a = Ok (Num x) ->
  ma_std a = Ok (Num s) ->
  PrimFloat.eqb s 0%float = false ->
  PrimFloat.is_nan m = true \/ PrimFloat.is_nan x = true \/
    PrimFloat.is_nan s = true ->
  fst (SExtractorBackground.calc_background data self) = Ok (Num m).
Proof.
  intros Hclip Hmd Hmn Hsd Hnz Hnan.
  change (fst (SExtractorBackground.calc_background data self))
    with (fst (compute (SExtractor self) data)).
  rewrite compute_unfold. cbn [fst config]. rewrite Hclip.
  cbn [and_then statistic]. rewrite Hmd, Hmn, Hsd. cbn [and_then].
  unfold sextractor_rule. cbn. rewrite Hnz.
  rewrite ratio_of_nan_not_below; [reflexivity|].
  destruct Hnan as [Hm | [Hx | Hs]];
    [left | right; left | right; right]; apply nan_unique; assumption.
Qed.

(** ** Calls the constructors refuse *)

Lemma bind_params_error (params : list (string * pyval)) (args : list pyval)
    (kw : gmap string pyval) (e : exn) :
  bind_params params args kw = Err e -> e = TypeError.
Proof.
  revert args kw. induction params as [|[name d] params IH]; intros args kw.
  - destruct args; cbn; congruence.
  - cbn. destruct args as [|v args].
    + destruct (bind_params params [] (delete name kw)) as [[vs rest]|e']
        eqn:Hrec; [discriminate|].
      intros [= <-]. exact (IH _ _ Hrec).
    + destruct (kw !! name); [congruence|].
      destruct (bind_params params args kw) as [[vs rest]|e'] eqn:Hrec;
        [discriminate|].
      intros [= <-]. exact (IH _ _ Hrec).
Qed.

(** What a successful binding tells about the call. *)
Lemma bind_params_ok (params : list (string * pyval)) (args : list pyval)
    (kw : gmap string pyval) (vs : list pyval) (rest : gmap string pyval) :
  bind_params params args kw = Ok (vs, rest) ->
  length args <= length params /\
  (forall i name d, params !! i = Some (name, d) -> i < length args ->
     kw !! name = None) /\
  (forall name, name ∉ params.*1 -> rest !! name = kw !! name) /\
  (forall name, is_Some (rest !! name) -> is_Some (kw !! name)).
Proof.
  revert args kw vs rest.
  induction params as [|[name d] params IH]; intros args kw vs rest.
  - destruct args; cbn; [|discriminate]. intros [= <- <-].
    repeat split; done.
  - cbn [bind_params]. destruct args as [|v args].
    + destruct (bind_params params [] (delete name kw)) as [[vs' rest']|e']
        eqn:Hrec; [|discriminate].
      intros [= <- <-].
      destruct (IH _ _ _ _ Hrec) as (_ & _ & Hrest & Hsub).
      repeat split.
      * cbn. lia.
      * intros i n' d' _ Hlt. cbn in Hlt. lia.
      * intros n' Hn'. cbn in Hn'. apply not_elem_of_cons in Hn' as [Hne Hn'].
        rewrite (Hrest n' Hn'). apply lookup_delete_ne. congruence.
      * intros n' Hn'. apply Hsub in Hn'.
        apply lookup_delete_is_Some in Hn' as [_ Hn']. exact Hn'.
    + destruct (kw !! name) eqn:Hname; [discriminate|].
      destruct (bind_params params args kw) as [[vs' rest']|e'] eqn:Hrec;
        [|discriminate].
      intros [= <- <-].
      destruct (IH _ _ _ _ Hrec) as (Hlen & Hpos & Hrest & Hsub).
      repeat split.
      * cbn. lia.
      * intros [|i] n' d' Hi Hlt; cbn in Hi, Hlt.
        -- injection Hi as <- <-. exact Hname.
        -- apply (Hpos i n' d' Hi). lia.
      * intros n' Hn'. cbn in Hn'. apply not_elem_of_cons in Hn' as [_ Hn'].
        exact (Hrest n' Hn').
      * exact Hsub.
Qed.

Lemma no_more_keywords_ok (kw : gmap string pyval) :
  no_more_keywords kw = Ok tt -> kw = ∅.
Proof.
  unfold no_more_keywords. destruct (map_to_list kw) eqn:Hl; [|discriminate].
  intros _. apply map_to_list_empty_iff. exact Hl.
Qed.

Lemma no_more_keywords_error (kw : gmap string pyval) (e : exn) :
  no_more_keywords kw = Err e -> e = TypeError.
Proof.
  unfold no_more_keywords. destruct (map_to_list kw); congruence.
Qed.

Lemma base_init_error (args : list pyval) (kw : gmap string pyval) (e : exn) :
  BackgroundBase.__init__ args kw = Err e -> e = TypeError.
Proof.
  unfold BackgroundBase.__init__.
  destruct (bind_params _ args kw) as [[vs rest]|e'] eqn:Hb.
  - destruct (no_more_keywords rest) as [[]|e''] eqn:Hn.
    + destruct vs as [|? [|? [|? [|? [|? [|? ?]]]]]]; congruence.
    + intros [= <-]. exact (no_more_keywords_error _ _ Hn).
  - intros [= <-]. exact (bind_params_error _ _ _ _ Hb).
Qed.

Lemma base_init_ok (args : list pyval) (kw : gmap string pyval)
    (b : BackgroundBase.t) :
  BackgroundBase.__init__ args kw = Ok b ->
  length args <= 5 /\
  (forall i name d, BackgroundBase.params !! i = Some (name, d) ->
     i < length args -> kw !! name = None) /\
  (forall name, is_Some (kw !! name) -> name ∈ base_names).
Proof.
  unfold BackgroundBase.__init__.
  destruct (bind_params _ args kw) as [[vs rest]|e'] eqn:Hb; [|discriminate].
  destruct (no_more_keywords rest) as [[]|e''] eqn:Hn; [|discriminate].
  intros _. apply no_more_keywords_ok in Hn. subst rest.
  destruct (bind_params_ok _ _ _ _ _ Hb) as (Hlen & Hpos & Hrest & _).
  repeat split; [exact Hlen | exact Hpos |].
  intros name Hname.
  destruct (decide (name ∈ base_names)) as [Hin|Hout]; [exact Hin|].
  specialize (Hrest name Hout). rewrite lookup_empty in Hrest.
  rewrite <- Hrest in Hname. destruct Hname; discriminate.
Qed.

Lemma init_kwargs_only_error (args : list pyval) (kw : gmap string pyval)
    (e : exn) :
  init_kwargs_only args kw = Err e -> e = TypeError.
Proof.
  unfold init_kwargs_only.
  destruct (bind_params [] args kw) as [[vs rest]|e'] eqn:Hb.
  - apply base_init_error.
  - intros [= <-]. exact (bind_params_error _ _ _ _ Hb).
Qed.

Lemma init_biweight_error (cd : pyval) (args : list pyval)
    (kw : gmap string pyval) (e : exn) :
  init_biweight cd args kw = Err e -> e = TypeError.
Proof.
  unfold init_biweight.
  destruct (bind_params _ args kw) as [[vs rest]|e'] eqn:Hb.
  - destruct (BackgroundBase.__init__ [] rest) as [b|e''] eqn:Hi.
    + destruct vs as [|? [|? [|? ?]]]; congruence.
    + intros [= <-]. exact (base_init_error _ _ _ Hi).
  - intros [= <-]. exact (bind_params_error _ _ _ _ Hb).
Qed.

Lemma init_biweight_ok (cd : pyval) (args : list pyval)
    (kw : gmap string pyval) (s : biweight_self) :
  init_biweight cd args kw = Ok s ->
  length args <= 2 /\
  (forall i name d, [("c", cd); ("M", VNone)] !! i = Some (name, d) ->
     i < length args -> kw !! name = None) /\
  (forall name, is_Some (kw !! name) -> name ∈ "c" :: "M" :: base_names).
Proof.
  unfold init_biweight.
  destruct (bind_params _ args kw) as [[vs rest]|e'] eqn:Hb; [|discriminate].
  destruct (BackgroundBase.__init__ [] rest) as [b|e''] eqn:Hi;
    [|discriminate].
  intros _.
  destruct (bind_params_ok _ _ _ _ _ Hb) as (Hlen & Hpos & Hrest & _).
  destruct (base_init_ok _ _ _ Hi) as (_ & _ & Hkw).
  repeat split; [exact Hlen | exact Hpos |].
  intros name Hname.
  destruct (decide (name ∈ ["c"; "M"])) as [Hin|Hout].
  - apply elem_of_cons in Hin as [-> | Hin]; [set_solver|].
    apply elem_of_cons in Hin as [-> | Hin]; [set_solver|].
    apply elem_of_nil in Hin. contradiction.
  - apply elem_of_cons. right. apply elem_of_cons. right. apply Hkw.
    rewrite (Hrest name Hout). exact Hname.
Qed.

Lemma construct_error (k : class) (args : list pyval)
    (kwargs : gmap string pyval) (e : exn) :
  construct k args kwargs = Err e -> e = TypeError.
Proof.
  destruct k; unfold construct, MeanBackground.__init__,
    MedianBackground.__init__, MMMBackground.__init__,
    SExtractorBackground.__init__, StdBackgroundRMS.__init__,
    MADStdBackgroundRMS.__init__, BiweightLocationBackground.__init__,
    BiweightMidvarianceBackgroundRMS.__init__.
  1: destruct (BackgroundBase.__init__ args kwargs) eqn:Hi; cbn;
       [discriminate|]; intros [= <-]; exact (base_init_error _ _ _ Hi).
  1-4,6-7: destruct (init_kwargs_only args kwargs) eqn:Hi; cbn;
       [discriminate|]; intros [= <-];
       exact (init_kwargs_only_error _ _ _ Hi).
  all: destruct (init_biweight _ args kwargs) eqn:Hi; cbn;
       [discriminate|]; intros [= <-]; exact (init_biweight_error _ _ _ _ Hi).
Qed.

Lemma construct_ok (k : class) (args : list pyval)
    (kwargs : gmap string pyval)
    (r : BackgroundBase.t * option (pyval * pyval)) :
  construct k args kwargs = Ok r -> well_formed_call k args kwargs.
Proof.
  unfold well_formed_call.
  destruct k; unfold construct, MeanBackground.__init__,
    MedianBackground.__init__, MMMBackground.__init__,
    SExtractorBackground.__init__, StdBackgroundRMS.__init__,
    MADStdBackgroundRMS.__init__, BiweightLocationBackground.__init__,
    BiweightMidvarianceBackgroundRMS.__init__; cbn [positional keywords].
  1: destruct (BackgroundBase.__init__ args kwargs) eqn:Hi; cbn;
       [|discriminate]; intros _; exact (base_init_ok _ _ _ Hi).
  1-4,6-7: unfold init_kwargs_only;
       destruct (bind_params [] args kwargs) as [[vs rest]|] eqn:Hb;
       [|cbn; discriminate];
       destruct (BackgroundBase.__init__ [] rest) eqn:Hi; cbn;
       [|discriminate]; intros _;
       destruct (bind_params_ok _ _ _ _ _ Hb) as (Hlen & Hpos & Hrest & _);
       destruct (base_init_ok _ _ _ Hi) as (_ & _ & Hkw);
       (split; [exact Hlen|]); (split; [exact Hpos|]);
       intros name Hname; apply Hkw; rewrite Hrest;
       [exact Hname | apply not_elem_of_nil].
  all: destruct (init_biweight _ args kwargs) eqn:Hi; cbn;
       [|discriminate]; intros _; exact (init_biweight_ok _ _ _ _ Hi).
Qed.

(** A constructor succeeds only on a call that binds to the parameters of
    the class (no positional argument too many, no parameter given twice,
    no keyword the class does not name), and a call it refuses raises
    [TypeError] and nothing else. *)
Theorem construction_fails_only_on_binding (k : class) (args : list pyval)
    (kwargs : gmap string pyval) :
  match construct k args kwargs with
  | Ok _ => well_formed_call k args kwargs
  | Err e => e = TypeError
  end.
Proof.
  destruct (construct k args kwargs) as [r|e] eqn:Hc.
  - exact (construct_ok k args kwargs r Hc).
  - exact (construct_error k args kwargs e Hc).
Qed.

(** The six estimators whose [__init__] takes keywords only refuse every
    positional argument. *)
Theorem positional_argument_refused (k : class) (v : pyval)
    (args : list pyval) (kwargs : gmap string pyval) :
  positional k = [] ->
  construct k (v :: args) kwargs = Err TypeError.
Proof.
  intros Hnone.
  destruct (construct k (v :: args) kwargs) as [r|e] eqn:Hc.
  - destruct (construct_ok _ _ _ _ Hc) as (Hlen & _).
    rewrite Hnone in Hlen. cbn in Hlen. lia.
  - f_equal. exact (construct_error _ _ _ _ Hc).
Qed.

(** A keyword that names no parameter of the class is refused, whatever
    else the call holds. *)
Theorem unknown_keyword_refused (k : class) (args : list pyval)
    (kwargs : gmap string pyval) (name : string) :
  is_Some (kwargs !! name) ->
  name ∉ keywords k ->
  construct k args kwargs = Err TypeError.
Proof.
  intros Hgiven Hunknown.
  destruct (construct k args kwargs) as [r|e] eqn:Hc.
  - destruct (construct_ok _ _ _ _ Hc) as (_ & _ & Hkw).
    destruct (Hunknown (Hkw name Hgiven)).
  - f_equal. exact (construct_error _ _ _ _ Hc).
Qed.

(** A parameter given both by position and by keyword is refused. *)
Theorem duplicate_argument_refused (k : class) (args : list pyval)
    (kwargs : gmap string pyval) (i : nat) (name : string) (d : pyval) :
  positional k !! i = Some (name, d) ->
  i < length args ->
  is_Some (kwargs !! name) ->
  construct k args kwargs = Err TypeError.
Proof.
  intros Hparam Hgiven Hagain.
  destruct (construct k args kwargs) as [r|e] eqn:Hc.
  - destruct (construct_ok _ _ _ _ Hc) as (_ & Hpos & _).
    rewrite (Hpos i name d Hparam Hgiven) in Hagain.
    destruct Hagain; discriminate.
  - f_equal. exact (construct_error _ _ _ _ Hc).
Qed.

(** ** The bounds left unset *)

Lemma bind_params_values (params : list (string * pyval))
    (args : list pyval) (kw : gmap string pyval) (vs : list pyval)
    (rest : gmap string pyval) :
  NoDup params.*1 ->
  bind_params params args kw = Ok (vs, rest) ->
  forall i name d, params !! i = Some (name, d) ->
    vs !! i = Some (default (default d (kw !! name)) (args !! i)).
Proof.
  revert args kw vs rest.
  induction params as [|[name d] params IH]; intros args kw vs rest Hnd.
  - intros _ i n' d' Hi. rewrite lookup_nil in Hi. discriminate.
  - cbn in Hnd. apply NoDup_cons in Hnd as [Hfresh Hnd].
    cbn [bind_params]. destruct args as [|v args].
    + destruct (bind_params params [] (delete name kw)) as [[vs' rest']|e']
        eqn:Hrec; [|discriminate].
      intros [= <- <-] [|i] n' d' Hi; cbn in Hi.
      * injection Hi as <- <-. reflexivity.
      * simpl. rewrite (IH _ _ _ _ Hnd Hrec i n' d' Hi).
        rewrite lookup_nil. simpl. rewrite lookup_delete_ne; [reflexivity|].
        intros <-. apply Hfresh.
        apply list_elem_of_fmap. exists (name, d'). split; [reflexivity|].
        eapply list_elem_of_lookup_2. exact Hi.
    + destruct (kw !! name) eqn:Hname; [discriminate|].
      destruct (bind_params params args kw) as [[vs' rest']|e'] eqn:Hrec;
        [|discriminate].
      intros [= <- <-] [|i] n' d' Hi; cbn in Hi.
      * injection Hi as <- <-. reflexivity.
      * simpl. exact (IH _ _ _ _ Hnd Hrec i n' d' Hi).
Qed.

Lemma base_init_bounds (args : list pyval) (kw : gmap string pyval)
    (b : BackgroundBase.t) :
  BackgroundBase.__init__ args kw = Ok b ->
  BackgroundBase.sigma_lower b
    = default (default VNone (kw !! "sigma_lower")) (args !! 2) /\
  BackgroundBase.sigma_upper b
    = default (default VNone (kw !! "sigma_upper")) (args !! 3).
Proof.
  unfold BackgroundBase.__init__.
  destruct (bind_params _ args kw) as [[vs rest]|e'] eqn:Hb; [|discriminate].
  destruct (no_more_keywords rest) as [[]|e'']; [|discriminate].
  assert (Hnd : NoDup BackgroundBase.params.*1)
    by (apply (bool_decide_unpack _); vm_compute; reflexivity).
  pose proof (bind_params_values _ _ _ _ _ Hnd Hb 2 _ _ eq_refl) as H2.
  pose proof (bind_params_values _ _ _ _ _ Hnd Hb 3 _ _ eq_refl) as H3.
  destruct vs as [|v1 [|v2 [|v3 [|v4 [|v5 [|v6 vs]]]]]]; try discriminate.
  intros [= <-]. cbn in H2, H3. cbn [BackgroundBase.sigma_lower
    BackgroundBase.sigma_upper]. split; congruence.
Qed.

(** A bound that a call leaves unset is stored as [None], whatever [sigma]
    is: the constructors do not put the value of [sigma] in its place. *)
Theorem unset_bounds_stay_none (k : class) (args : list pyval)
    (kwargs : gmap string pyval) (b : BackgroundBase.t)
    (t : option (pyval * pyval)) :
  construct k args kwargs = Ok (b, t) ->
  (left_to_default k args kwargs "sigma_lower" ->
     BackgroundBase.sigma_lower b = VNone) /\
  (left_to_default k args kwargs "sigma_upper" ->
     BackgroundBase.sigma_upper b = VNone).
Proof.
  unfold left_to_default.
  destruct k; unfold construct, MeanBackground.__init__,
    MedianBackground.__init__, MMMBackground.__init__,
    SExtractorBackground.__init__, StdBackgroundRMS.__init__,
    MADStdBackgroundRMS.__init__, BiweightLocationBackground.__init__,
    BiweightMidvarianceBackgroundRMS.__init__; cbn [positional].
  1: destruct (BackgroundBase.__init__ args kwargs) as [b'|] eqn:Hi; cbn;
       [|discriminate]; intros [= <- <-];
       destruct (base_init_bounds _ _ _ Hi) as [-> ->];
       split; intros [-> Hpos];
       [ rewrite (lookup_ge_None_2 args 2 (Hpos 2 _ eq_refl))
       | rewrite (lookup_ge_None_2 args 3 (Hpos 3 _ eq_refl)) ];
       reflexivity.
  1-4,6-7: unfold init_kwargs_only;
       destruct (bind_params [] args kwargs) as [[vs rest]|] eqn:Hb;
       [|cbn; discriminate];
       destruct (BackgroundBase.__init__ [] rest) as [b'|] eqn:Hi; cbn;
       [|discriminate]; intros [= <- <-];
       destruct (bind_params_ok _ _ _ _ _ Hb) as (_ & _ & Hrest & _);
       destruct (base_init_bounds _ _ _ Hi) as [-> ->];
       rewrite !Hrest by apply not_elem_of_nil;
       split; intros [-> _]; reflexivity.
  all: unfold init_biweight;
       destruct (bind_params _ args kwargs) as [[vs rest]|] eqn:Hb;
       [|cbn; discriminate];
       destruct (BackgroundBase.__init__ [] rest) as [b'|] eqn:Hi;
       [|cbn; discriminate];
       destruct vs as [|vc [|vM [|? ?]]]; cbn; try discriminate;
       intros [= <- <-];
       destruct (bind_params_ok _ _ _ _ _ Hb) as (_ & _ & Hrest & _);
       destruct (base_init_bounds _ _ _ Hi) as [-> ->];
       rewrite !Hrest
         by (apply (bool_decide_unpack _); vm_compute; reflexivity);
       split; intros [-> _]; reflexivity.
Qed.

(** *** The properties above on concrete calls *)

Lemma clipping_estimator_is_plain_on_clipped_witness :
  fst (@compute Reference.prims (Mean tight_base) ramp_with_outlier)
  = fst (@compute Reference.prims (without_clipping (Mean tight_base))
           ramp_outlier_masked).
Proof.
  apply (clipping_estimator_is_plain_on_clipped Reference.prims
           (Mean tight_base) ramp_with_outlier ramp_outlier_masked);
    vm_compute; reflexivity.
Defined.

Lemma clipping_failure_is_raised_witness :
  fst (@compute Reference.prims (StdRMS text_sigma_base) ramp) = Err TypeError.
Proof.
  apply (clipping_failure_is_raised Reference.prims (StdRMS text_sigma_base)
           ramp TypeError); vm_compute; reflexivity.
Defined.

Lemma exceptions_come_from_imports_witness :
  @raised_by_import Reference.prims (StdRMS text_sigma_base) ramp TypeError.
Proof.
  apply (exceptions_come_from_imports Reference.prims
           (StdRMS text_sigma_base) ramp TypeError).
  vm_compute. reflexivity.
Defined.

Lemma sextractor_nan_returns_median_witness :
  fst (@SExtractorBackground.calc_background Reference.prims ramp_with_nan
         unclipped_base)
  = Ok (Num (Reference.median (unmasked ramp_with_nan))).
Proof.
  apply (sextractor_nan_returns_median Reference.prims unclipped_base
           ramp_with_nan ramp_with_nan
           (Reference.median (unmasked ramp_with_nan))
           (Reference.mean (unmasked ramp_with_nan))
           (Reference.std (unmasked ramp_with_nan)));
    try (vm_compute; reflexivity).
  right. left. vm_compute. reflexivity.
Defined.

Lemma positional_argument_refused_witness :
  construct CMeanBackground [VBool false] ∅ = Err TypeError.
Proof.
  apply (positional_argument_refused CMeanBackground (VBool false) [] ∅).
  reflexivity.
Defined.

Lemma unknown_keyword_refused_witness :
  construct CMedianBackground [] (<["c" := VInt 6]> ∅) = Err TypeError.
Proof.
  apply (unknown_keyword_refused CMedianBackground []
           (<["c" := VInt 6]> ∅) "c").
  - rewrite lookup_insert_eq. eexists. reflexivity.
  - apply (bool_decide_unpack _). vm_compute. reflexivity.
Defined.

Lemma duplicate_argument_refused_witness :
  construct CBiweightLocationBackground [VInt 6] (<["c" := VInt 6]> ∅)
  = Err TypeError.
Proof.
  apply (duplicate_argument_refused CBiweightLocationBackground [VInt 6]
           (<["c" := VInt 6]> ∅) 0 "c" (VInt 6)).
  - reflexivity.
  - cbn. lia.
  - rewrite lookup_insert_eq. eexists. reflexivity.
Defined.

Lemma unset_bounds_stay_none_witness :
  BackgroundBase.sigma_lower
    (BackgroundBase.Self (VBool true) (VFloat 2.5%float) VNone VNone (VInt 5))
  = VNone.
Proof.
  assert (Hcall :
    construct CMeanBackground []
      (<["sigma" := VFloat 2.5%float]> (∅ : gmap string pyval))
    = Ok (BackgroundBase.Self (VBool true) (VFloat 2.5%float) VNone VNone
            (VInt 5), None)) by (vm_compute; reflexivity).
  apply (proj1 (unset_bounds_stay_none CMeanBackground [] _ _ None Hcall)).
  split.
  - rewrite lookup_insert_ne by discriminate. apply lookup_empty.
  - intros i d Hi. cbn in Hi. rewrite lookup_nil in Hi. discriminate.
Defined.
